(** * The validated query function [api] of the blog post
      "Effective Query Functions for React Query with Zod"

    A shallow embedding of the TypeScript helper [api] and of the query
    function [getRepository] defined in the post, together with the
    properties of the helper: what it validates, when it calls the
    transport, and how it settles.

    JavaScript effects are threaded explicitly: a computation is a function
    from the state of the process (environment variables, the requests handed
    to the transport, the reports handed to the error-reporting service, the
    queue of pending promise reactions) to a completion and a new state. *)

From Stdlib Require Import ZArith.
From stdpp Require Import base option list strings gmap.

Set Warnings "-register-all".

Local Open Scope string_scope.
Local Open Scope list_scope.

(** ** JSON-like JavaScript values *)

(** Objects keep their own properties in insertion order; a property is read
    by the first binding of its key.  String length is counted in characters
    of [string], which agrees with JavaScript's [length] on ASCII text. *)
Inductive Value : Type :=
  | VUndefined
  | VNull
  | VBool (b : bool)
  | VNum (n : Z)
  | VStr (s : string)
  | VArr (items : list Value)
  | VObj (fields : list (string * Value)).

(** [obj[key]] on the own properties of an object. *)
Fixpoint getProperty (key : string) (fields : list (string * Value)) : option Value :=
  match fields with
  | [] => None
  | (k, v) :: rest => if String.eqb key k then Some v else getProperty key rest
  end.

Definition isUndefined (v : Value) : bool :=
  match v with VUndefined => true | _ => false end.

(** ** Zod: the schema interface *)

Inductive ZodIssueCode := invalid_type | too_small.

Record ZodIssue := { code : ZodIssueCode; issuePath : list string }.

Record ZodError := { issues : list ZodIssue }.

Inductive SafeParseReturnType :=
  | SafeParseSuccess (data : Value)
  | SafeParseError (error : ZodError).

Definition success (r : SafeParseReturnType) : bool :=
  match r with SafeParseSuccess _ => true | SafeParseError _ => false end.

(** [z.ZodType<T>]: the helper uses a schema only through [parse] and
    [safeParseAsync], both of which run the schema's one parsing function. *)
Record ZodType := { safeParse : Value -> SafeParseReturnType }.

(** [schema.transform(f)]: parse, then map the parsed value. *)
Definition transform (schema : ZodType) (f : Value -> Value) : ZodType :=
  {| safeParse := fun input =>
       match safeParse schema input with
       | SafeParseSuccess v => SafeParseSuccess (f v)
       | SafeParseError e => SafeParseError e
       end |}.

(** ** The transport and the process state *)

Inductive HTTPMethod := GET | POST.

Definition isGET (m : HTTPMethod) : bool :=
  match m with GET => true | POST => false end.

(** The object literal handed to [axios] at source lines 75-80; the computed
    key puts the payload under [params] or under [data], the other key is
    absent. *)
Record AxiosRequestConfig := {
  req_baseURL : option string;
  req_method : HTTPMethod;
  req_url : string;
  req_params : option Value;
  req_data : option Value
}.

Record AxiosResponse := { res_data : Value; res_status : Z }.

Inductive AxiosError := BadStatus (status : Z) | NetworkError | Timeout.

Inductive JsError :=
  | ZodErr (e : ZodError)
  | AxiosErr (e : AxiosError).

(** A promise, seen at the moment it has settled. *)
Inductive Promise (A : Type) :=
  | Fulfilled (a : A)
  | Rejected (e : JsError).
Arguments Fulfilled {A} a.
Arguments Rejected {A} e.

(** A reaction registered with [.then] and not yet run.  The helper
    registers one kind only: the arrow function of source lines 83-87,
    waiting for the outcome of [safeParseAsync]. *)
Inductive Job := ResponseChecked (result : SafeParseReturnType).

Record World := {
  process_env : gmap string string;
  sent : list AxiosRequestConfig;
  reported : list ZodError;
  microtasks : list Job
}.

(** Modelled from the spec: [EnvName] is imported from [utils/env], which is
    not part of the sources; the configuration collaborator names the
    runtime modes "development" and "production". *)
Module EnvName.
Definition PRODUCTION : string := "production".
End EnvName.

(** ** JavaScript computations *)

Inductive Completion (A : Type) :=
  | Normal (a : A)
  | Throw (e : JsError).
Arguments Normal {A} a.
Arguments Throw {A} e.

Definition JS (A : Type) : Type := World -> Completion A * World.

Definition ret {A} (a : A) : JS A := fun w => (Normal a, w).

Definition throw {A} (e : JsError) : JS A := fun w => (Throw e, w).

Definition bind {A B} (m : JS A) (k : A -> JS B) : JS B :=
  fun w =>
    match m w with
    | (Normal a, w') => k a w'
    | (Throw e, w') => (Throw e, w')
    end.

Notation "x <- m ;; k" := (bind m (fun x => k))
  (at level 100, m at next level, right associativity).
Notation "m ;;; k" := (bind m (fun _ => k))
  (at level 100, right associativity).

(** [async function () { body }]: the call itself never throws; an exception
    raised by the body rejects the returned promise. *)
Definition async {A} (body : JS A) : JS (Promise A) :=
  fun w =>
    match body w with
    | (Normal a, w') => (Normal (Fulfilled a), w')
    | (Throw e, w') => (Normal (Rejected e), w')
    end.

(** [await p] inside an async body. *)
Definition await {A} (p : Promise A) : JS A :=
  match p with
  | Fulfilled a => ret a
  | Rejected e => throw e
  end.

(** [process.env.NAME], read when the expression is evaluated. *)
Definition getenv (name : string) : JS (option string) :=
  fun w => (Normal (process_env w !! name), w).

(** [schema.parse(value)]: the parsed value, or a thrown [ZodError]. *)
Definition parse (schema : ZodType) (value : Value) : JS Value :=
  match safeParse schema value with
  | SafeParseSuccess v => ret v
  | SafeParseError e => throw (ZodErr e)
  end.

(** [schema.safeParseAsync(value)]: never throws, never rejects. *)
Definition safeParseAsync (schema : ZodType) (value : Value)
  : JS (Promise SafeParseReturnType) :=
  ret (Fulfilled (safeParse schema value)).

(** [promise.then(reaction)]: the reaction is queued, the caller goes on. *)
Definition then_ (p : Promise SafeParseReturnType) : JS unit :=
  fun w =>
    match p with
    | Fulfilled r =>
        (Normal tt,
         {| process_env := process_env w; sent := sent w;
            reported := reported w;
            microtasks := microtasks w ++ [ResponseChecked r] |})
    | Rejected _ => (Normal tt, w)
    end.

(** The body of the reaction, source lines 84-86: the branch taken on a
    mismatch holds a comment and no statement. *)
Definition runJob (j : Job) : JS unit :=
  match j with
  | ResponseChecked result =>
      if negb (success result)
      then ret tt   (* TODO: Send error to sentry or other error reporting service *)
      else ret tt
  end.

(** Run the queued reactions, oldest first. *)
Definition drain (w : World) : World :=
  fold_left (fun w' j => snd (runJob j w')) (microtasks w)
    {| process_env := process_env w; sent := sent w;
       reported := reported w; microtasks := [] |}.

(** The argument of [api], source lines 60-70. *)
Record ApiDefinition := {
  method : HTTPMethod;
  path : string;
  requestSchema : ZodType;
  responseSchema : ZodType
}.

(** The transport collaborator and whatever else runs while the call is
    awaited: given the request and the environment at the time of the
    call, the settled response and the environment as it is when the
    helper resumes. *)
Definition Network : Type :=
  AxiosRequestConfig -> gmap string string ->
  Promise AxiosResponse * gmap string string.

Section Api.

Variable network : Network.

(** [axios(config)], taken together with the wait for its settlement. *)
Definition axios (config : AxiosRequestConfig) : JS (Promise AxiosResponse) :=
  fun w =>
    let '(settled, env') := network config (process_env w) in
    (Normal settled,
     {| process_env := env'; sent := sent w ++ [config];
        reported := reported w; microtasks := microtasks w |}).

(** [apiCall], source lines 74-93. *)
Definition apiCall (d : ApiDefinition) (requestData : Value) : JS (Promise Value) :=
  async (
    baseURL <- getenv "API_URL" ;;
    pending <- axios {| req_baseURL := baseURL;
                        req_method := method d;
                        req_url := path d;
                        req_params := if isGET (method d) then Some requestData else None;
                        req_data := if isGET (method d) then None else Some requestData |} ;;
    response <- await pending ;;
    node_env <- getenv "NODE_ENV" ;;
    if bool_decide (node_env = Some EnvName.PRODUCTION) then
      checking <- safeParseAsync (responseSchema d) (res_data response) ;;
      (then_ checking ;;;
       ret (res_data response))
    else
      parse (responseSchema d) (res_data response)).

(** The function returned by [api], source lines 71-96. *)
Definition invocation (d : ApiDefinition) (requestData : Value) : JS (Promise Value) :=
  (parse (requestSchema d) requestData ;;;
   apiCall d requestData).

(** [api], source lines 60-97: builds the query function. *)
Definition api (d : ApiDefinition) : JS (Value -> JS (Promise Value)) :=
  ret (invocation d).

End Api.

(** ** The schemas of the post *)

(** Modelled from the spec: the Zod library is not part of the sources.  The
    three schema constructors the post uses are described as the request
    being void, and the response an object with a string field of minimum
    length 1; they are given Zod's documented behaviour: [z.void()] accepts
    [undefined] only, [z.string()] accepts strings and [.min(n)] those of
    length at least [n], [z.object(shape)] accepts objects, parses every key
    of the shape, drops the keys it does not know and gathers the issues of
    all fields. *)
Inductive ZodSchema : Type :=
  | ZodVoid
  | ZodString (minLength : option nat)
  | ZodObject (shape : list (string * ZodSchema)).

Definition issue (c : ZodIssueCode) : SafeParseReturnType :=
  SafeParseError {| issues := [ {| code := c; issuePath := [] |} ] |}.

Definition under (key : string) (i : ZodIssue) : ZodIssue :=
  {| code := code i; issuePath := key :: issuePath i |}.

(** [key in obj]. *)
Definition hasProperty (key : string) (fields : list (string * Value)) : bool :=
  match getProperty key fields with Some _ => true | None => false end.

(** One pass over the keys of a shape: the issues found, or else the
    properties of the parsed object.  A key whose parsed value is
    [undefined] is set only if the input had the key. *)
Definition parseShape (parseField : ZodSchema -> Value -> SafeParseReturnType)
    (fields : list (string * Value))
  : list (string * ZodSchema) -> list ZodIssue + list (string * Value) :=
  fix go shape :=
    match shape with
    | [] => inr []
    | (key, schema) :: rest =>
        let input := default VUndefined (getProperty key fields) in
        match parseField schema input, go rest with
        | SafeParseSuccess v, inr out =>
            inr (if negb (isUndefined v) || hasProperty key fields
                 then (key, v) :: out else out)
        | SafeParseSuccess _, inl errs => inl errs
        | SafeParseError e, inr _ => inl (map (under key) (issues e))
        | SafeParseError e, inl errs => inl (map (under key) (issues e) ++ errs)
        end
    end.

Fixpoint zodParse (schema : ZodSchema) (input : Value) : SafeParseReturnType :=
  match schema with
  | ZodVoid =>
      match input with
      | VUndefined => SafeParseSuccess VUndefined
      | _ => issue invalid_type
      end
  | ZodString minLength =>
      match input with
      | VStr s =>
          match minLength with
          | Some n => if Nat.ltb (String.length s) n then issue too_small
                      else SafeParseSuccess (VStr s)
          | None => SafeParseSuccess (VStr s)
          end
      | _ => issue invalid_type
      end
  | ZodObject shape =>
      match input with
      | VObj fields =>
          match parseShape zodParse fields shape with
          | inr out => SafeParseSuccess (VObj out)
          | inl errs => SafeParseError {| issues := errs |}
          end
      | _ => issue invalid_type
      end
  end.

(** A schema of the three constructors, as the helper sees it. *)
Definition zod (schema : ZodSchema) : ZodType := {| safeParse := zodParse schema |}.

(** The keys of an object literal are distinct, at every level. *)
Fixpoint distinctKeys (schema : ZodSchema) : bool :=
  match schema with
  | ZodObject shape =>
      bool_decide (NoDup (map fst shape)) &&
      forallb (fun entry => distinctKeys (snd entry)) shape
  | _ => true
  end.










(** Source lines 23-24. *)
Definition GetRepositoryRequest : ZodSchema := ZodVoid.
Definition GetRepositoryResponse : ZodSchema :=
  ZodObject [("name", ZodString (Some 1))].

(** Source lines 25-33. *)
Definition getRepositoryDefinition : ApiDefinition :=
  {| method := GET;
     path := "/repository";
     requestSchema := zod GetRepositoryRequest;
     responseSchema := zod GetRepositoryResponse |}.

Definition getRepository network : Value -> JS (Promise Value) :=
  invocation network getRepositoryDefinition.

(** ** Reading the helper's runs *)

(** The request the helper hands to the transport when the process
    environment is [env]. *)
Definition requestConfig (d : ApiDefinition) (requestData : Value)
    (env : gmap string string) : AxiosRequestConfig :=
  {| req_baseURL := env !! "API_URL";
     req_method := method d;
     req_url := path d;
     req_params := if isGET (method d) then Some requestData else None;
     req_data := if isGET (method d) then None else Some requestData |}.

(** The payload of a request, wherever the method put it. *)
Definition payload (config : AxiosRequestConfig) : option Value :=
  if isGET (req_method config) then req_params config else req_data config.

(** Lenient mode is [NODE_ENV] being "production"; strict mode is anything
    else, an unset variable included. *)
Definition production (env : gmap string string) : bool :=
  bool_decide (env !! "NODE_ENV" = Some EnvName.PRODUCTION).

(** The state after one transport call. *)
Definition afterCall (w : World) (config : AxiosRequestConfig)
    (env' : gmap string string) : World :=
  {| process_env := env'; sent := sent w ++ [config];
     reported := reported w; microtasks := microtasks w |}.

(** ** Fixtures *)

Definition freshWorld (env : gmap string string) : World :=
  {| process_env := env; sent := []; reported := []; microtasks := [] |}.

(** A server that answers every request with [body]. *)
Definition respond (body : Value) : Network :=
  fun _ env => (Fulfilled {| res_data := body; res_status := 200 |}, env).

(** A transport that fails every request. *)
Definition failWith (e : AxiosError) : Network :=
  fun _ env => (Rejected (AxiosErr e), env).

(** A server that answers with [body] while another task sets [NODE_ENV]. *)
Definition respondWhileSetting (mode : string) (body : Value) : Network :=
  fun _ env =>
    (Fulfilled {| res_data := body; res_status := 200 |}, <["NODE_ENV" := mode]> env).

Definition development : gmap string string :=
  {[ "API_URL" := "https://api.example.test"; "NODE_ENV" := "development" ]}.

Definition live : gmap string string :=
  {[ "API_URL" := "https://api.example.test"; "NODE_ENV" := "production" ]}.

(** [z.string().transform((s) => s + "!")], a [z.ZodType<string>]. *)
Definition exclaim : ZodType :=
  transform (zod (ZodString None))
    (fun v => match v with VStr s => VStr (s ++ "!") | other => other end).

Definition shoutDefinition (m : HTTPMethod) : ApiDefinition :=
  {| method := m; path := "/shout";
     requestSchema := exclaim; responseSchema := exclaim |}.

Definition emptyName : Value := VObj [("name", VStr "")].
Definition octo : Value := VObj [("name", VStr "octo")].

(** ** React elements and the two components *)

(** What a component function returns: a tree of elements, each with a
    type (a host tag, a component, or the fragment), its props, and its
    children; a child is an element or a value (JSX text is a string
    value).  Components met in the tree are not expanded. *)
Inductive ReactType := Tag (name : string) | Component (name : string) | Fragment.

Inductive ReactNode : Type :=
  | Child (v : Value)
  | Element (type : ReactType) (props : list (string * Value))
      (children : list ReactNode).

(** A component either returns or throws a [TypeError], the one exception
    a property read can raise. *)
Inductive Outcome (A : Type) :=
  | Returns (a : A)
  | ThrowsTypeError.
Arguments Returns {A} a.
Arguments ThrowsTypeError {A}.

Definition andThen {A B} (m : Outcome A) (k : A -> Outcome B) : Outcome B :=
  match m with
  | Returns a => k a
  | ThrowsTypeError => ThrowsTypeError
  end.

Notation "x <~ m ;; k" := (andThen m (fun x => k))
  (at level 100, m at next level, right associativity).

Definition nullish (v : Value) : bool :=
  match v with VUndefined | VNull => true | _ => false end.

(** The value of [v.key] when [v] is neither [null] nor [undefined]: the
    property of an object, [undefined] when the object lacks it or when [v]
    is a string, number, boolean or array.  Of the keys the components
    read, one is inherited by such a value, [link] by a string; [BlogPost]
    reads it on the cover after [file.publicURL], which has thrown by then
    unless the cover is an object. *)
Definition read (v : Value) (key : string) : Value :=
  match v with
  | VObj fields => default VUndefined (getProperty key fields)
  | _ => VUndefined
  end.

(** [v.key]. *)
Definition member (v : Value) (key : string) : Outcome Value :=
  if nullish v then ThrowsTypeError else Returns (read v key).

(** [v?.key]. *)
Definition optionalMember (v : Value) (key : string) : Outcome Value :=
  if nullish v then Returns VUndefined else member v key.

(** [v.k1.k2...]. *)
Fixpoint chain (v : Value) (keys : list string) : Outcome Value :=
  match keys with
  | [] => Returns v
  | key :: rest => next <~ member v key ;; chain next rest
  end.

(** [Example], source lines 11-15 of the post; [data] is what [useQuery]
    hands back: [undefined] until the query function has resolved, then
    the value it resolved with. *)
Definition Example (data : Value) : Outcome ReactNode :=
  name <~ optionalMember data "name" ;;
  Returns (Element (Tag "div") [] [Child (VStr "The name is "); Child name]).

(** The page component of [templates/blog-post.js], lines 28-77.  The
    expressions are read in the order of the source. *)
Definition BlogPost (data : Value) : Outcome ReactNode :=
  post <~ member data "markdownRemark" ;;
  title <~ chain post ["frontmatter"; "title"] ;;
  date <~ chain post ["frontmatter"; "date"] ;;
  timeToRead <~ member post "timeToRead" ;;
  publicURL <~ chain post ["frontmatter"; "cover"; "file"; "publicURL"] ;;
  alt <~ chain post ["frontmatter"; "cover"; "alt"] ;;
  link <~ chain post ["frontmatter"; "cover"; "link"] ;;
  author <~ chain post ["frontmatter"; "cover"; "author"] ;;
  html <~ member post "html" ;;
  Returns
    (Element Fragment [] [
       Element (Component "PostHeader") [] [];
       Element (Component "Layout") [] [
         Element (Tag "article") [("lang", VStr "en")] [
           Element (Tag "h1") [] [
             Element (Tag "span")
               [("dangerouslySetInnerHTML", VObj [("__html", title)])] [];
             Element (Component "Meta") [] [
               Child date; Child (VStr " · "); Child timeToRead;
               Child (VStr " min read") ] ];
           Element (Tag "figure") [] [
             Element (Tag "img") [("src", publicURL); ("alt", alt)] [];
             Element (Tag "figcaption") [] [
               Element (Tag "a")
                 [("href", link); ("target", VStr "_blank");
                  ("rel", VStr "noopener noreferrer")]
                 [Child (VStr "Photo by "); Child author] ] ];
           Element (Tag "div")
             [("dangerouslySetInnerHTML", VObj [("__html", html)])] [] ];
         Element (Component "Footer") [] [
           Child (VStr "Would you like to have a civil discussion about this post? Hit me up on");
           Child (VStr " ");
           Element (Tag "a")
             [("href", VStr "https://twitter.com/Gpx"); ("target", VStr "_blank");
              ("rel", VStr "noopener noreferrer")]
             [Child (VStr "twitter")];
           Child (VStr ".") ] ] ]).

(** The elements of a tree, in document order, each with its props. *)
Fixpoint elements (node : ReactNode) : list (ReactType * list (string * Value)) :=
  match node with
  | Child _ => []
  | Element type props children => (type, props) :: flat_map elements children
  end.

(** The values of a tree, in document order: what React renders as
    escaped text. *)
Fixpoint textChildren (node : ReactNode) : list Value :=
  match node with
  | Child v => [v]
  | Element _ _ children => flat_map textChildren children
  end.

(** The markup handed to [dangerouslySetInnerHTML], in document order. *)
Definition innerHTMLs (node : ReactNode) : list Value :=
  omap (fun entry =>
          match getProperty "dangerouslySetInnerHTML" entry.2 with
          | Some raw => Some (read raw "__html")
          | None => None
          end) (elements node).

(** The props of the anchors of a tree. *)
Definition anchors (node : ReactNode) : list (list (string * Value)) :=
  omap (fun entry =>
          match entry.1 with
          | Tag "a" => Some entry.2
          | _ => None
          end) (elements node).

(** A post as the page query of [blog-post.js] returns it. *)
Definition samplePost (cover : Value) : Value :=
  VObj [("markdownRemark", VObj [
    ("html", VStr "<p>Hello</p>");
    ("timeToRead", VNum 3);
    ("frontmatter", VObj [
       ("title", VStr "Effective <em>Query</em> Functions");
       ("date", VStr "March 03, 2022");
       ("cover", cover) ]) ])].

Definition sampleCover : Value :=
  VObj [("file", VObj [("publicURL", VStr "/static/cover.jpg")]);
        ("author", VStr "<b>Ann</b>");
        ("link", VStr "https://unsplash.example/ann");
        ("alt", VStr "A desk")].

(** The page of the sample post. *)
Definition samplePage : ReactNode :=
  Eval vm_compute in
    match BlogPost (samplePost sampleCover) with
    | Returns page => page
    | ThrowsTypeError => Child VUndefined
    end.

(** A server that answers every request with [body] under [status]. *)
Definition respondStatus (status : Z) (body : Value) : Network :=
  fun _ env => (Fulfilled {| res_data := body; res_status := status |}, env).

Definition octoWithStars : Value := VObj [("name", VStr "octo"); ("stars", VNum 7)].

(** Runs [BlogPost] by cases on the values it reads being there. *)
Ltac run_BlogPost :=
  unfold BlogPost, chain, member, andThen;
  repeat match goal with
         | |- context [nullish ?v] => destruct (nullish v) eqn:?
         end.

(** ** Properties of the helper *)

Lemma runJob_silent (j : Job) (w : World) : runJob j w = (Normal tt, w).
Proof. destruct j as [result]; simpl. by destruct (success result). Qed.

Lemma drain_jobs (jobs : list Job) (w : World) :
  fold_left (fun w' j => snd (runJob j w')) jobs w = w.
Proof.
  induction jobs as [|j jobs IH] in w |- *; simpl; [done|].
  by rewrite runJob_silent.
Qed.

Lemma drain_sent (w : World) : sent (drain w) = sent w.
Proof. unfold drain. by rewrite drain_jobs. Qed.

Lemma drain_reported (w : World) : reported (drain w) = reported w.
Proof. unfold drain. by rewrite drain_jobs. Qed.

Section Runs.

Context (network : Network) (d : ApiDefinition) (requestData : Value).

(** A payload the request schema refuses: the exception leaves the
    function before [apiCall] is entered. *)
Lemma invocation_refused (e : ZodError) (w : World) :
  safeParse (requestSchema d) requestData = SafeParseError e ->
  invocation network d requestData w = (Throw (ZodErr e), w).
Proof.
  intros Hreq. unfold invocation, bind, parse. by rewrite Hreq.
Qed.

(** A payload the request schema accepts: the run is that of [apiCall]. *)
Lemma invocation_accepted (parsed : Value) (w : World) :
  safeParse (requestSchema d) requestData = SafeParseSuccess parsed ->
  invocation network d requestData w = apiCall network d requestData w.
Proof.
  intros Hreq. unfold invocation, bind, parse. by rewrite Hreq.
Qed.

(** The run of [apiCall], by the outcome of the transport, the mode found
    when the response is in, and the verdict of the response schema. *)
Lemma apiCall_run (w : World) :
  apiCall network d requestData w =
  let config := requestConfig d requestData (process_env w) in
  let w1 := afterCall w config (network config (process_env w)).2 in
  match (network config (process_env w)).1 with
  | Rejected err => (Normal (Rejected err), w1)
  | Fulfilled response =>
      if production (process_env w1) then
        (Normal (Fulfilled (res_data response)),
         {| process_env := process_env w1; sent := sent w1;
            reported := reported w1;
            microtasks := microtasks w1 ++
              [ResponseChecked (safeParse (responseSchema d) (res_data response))] |})
      else
        match safeParse (responseSchema d) (res_data response) with
        | SafeParseSuccess v => (Normal (Fulfilled v), w1)
        | SafeParseError e => (Normal (Rejected (ZodErr e)), w1)
        end
  end.
Proof.
  unfold apiCall, async, bind, getenv, axios, requestConfig, afterCall,
    production; simpl.
  destruct (network _ (process_env w)) as [[response|err] env']; simpl; [|done].
  case_bool_decide; simpl; [done|].
  unfold parse. by destruct (safeParse (responseSchema d) (res_data response)).
Qed.

(** Whatever the transport answers, an accepted payload costs one request,
    and it is the request built from the environment of the call. *)
Lemma apiCall_sent (w : World) :
  sent (apiCall network d requestData w).2 =
  sent w ++ [requestConfig d requestData (process_env w)].
Proof.
  rewrite apiCall_run; simpl.
  destruct (network _ (process_env w)) as [[response|err] env']; simpl; [|done].
  destruct (production env'); simpl; [done|].
  by destruct (safeParse (responseSchema d) (res_data response)).
Qed.

Lemma apiCall_reported (w : World) :
  reported (apiCall network d requestData w).2 = reported w.
Proof.
  rewrite apiCall_run; simpl.
  destruct (network _ (process_env w)) as [[response|err] env']; simpl; [|done].
  destruct (production env'); simpl; [done|].
  by destruct (safeParse (responseSchema d) (res_data response)).
Qed.

End Runs.

Lemma payload_requestConfig (d : ApiDefinition) (requestData : Value)
    (env : gmap string string) :
  payload (requestConfig d requestData env) = Some requestData.
Proof. unfold payload, requestConfig; simpl. by destruct (method d). Qed.

(** *** Validation of the request *)

(** C1: a payload that the request schema refuses makes the built function
    throw the schema's error synchronously (the call completes by an
    exception, not by a promise) and leaves the process untouched: nothing
    is handed to the transport, then or when the queued reactions run. *)
Theorem invalid_request_throws_before_transport
    (network : Network) (d : ApiDefinition) (requestData : Value)
    (e : ZodError) (w : World) :
  safeParse (requestSchema d) requestData = SafeParseError e ->
  invocation network d requestData w = (Throw (ZodErr e), w)
  /\ sent (drain (invocation network d requestData w).2) = sent w.
Proof.
  intros Hreq. rewrite (invocation_refused network d requestData e w Hreq).
  split; [done|]. apply drain_sent.
Qed.

(** C4: a payload that the request schema accepts costs exactly one request
    to the transport, with the method and path of the definition; the
    payload travels as [params] under GET and as [data] under any other
    method, the other key being absent. *)
Theorem valid_request_one_transport_call
    (network : Network) (d : ApiDefinition) (requestData parsed : Value)
    (w : World) :
  safeParse (requestSchema d) requestData = SafeParseSuccess parsed ->
  exists config,
    sent (drain (invocation network d requestData w).2) = sent w ++ [config]
    /\ req_method config = method d
    /\ req_url config = path d
    /\ (method d = GET ->
        req_params config = Some requestData /\ req_data config = None)
    /\ (method d <> GET ->
        req_data config = Some requestData /\ req_params config = None).
Proof.
  intros Hreq. exists (requestConfig d requestData (process_env w)).
  rewrite (invocation_accepted network d requestData parsed w Hreq).
  rewrite drain_sent, apiCall_sent.
  unfold requestConfig; simpl.
  repeat split; destruct (method d); simpl; congruence.
Qed.

(** C9: what the transport receives is the value the caller passed; the
    value produced by the request schema is dropped.  Two definitions that
    differ only in a request schema accepting the payload run alike,
    whatever the schemas make of it. *)
Theorem transport_receives_original_payload
    (network : Network) (d : ApiDefinition) (requestData parsed : Value)
    (w : World) :
  safeParse (requestSchema d) requestData = SafeParseSuccess parsed ->
  (exists config,
     sent (invocation network d requestData w).2 = sent w ++ [config]
     /\ payload config = Some requestData)
  /\ (forall (other : ZodType) (parsed' : Value),
        safeParse other requestData = SafeParseSuccess parsed' ->
        invocation network
          {| method := method d; path := path d;
             requestSchema := other; responseSchema := responseSchema d |}
          requestData w
        = invocation network d requestData w).
Proof.
  intros Hreq. split.
  - exists (requestConfig d requestData (process_env w)).
    rewrite (invocation_accepted network d requestData parsed w Hreq).
    split; [apply apiCall_sent | apply payload_requestConfig].
  - intros other parsed' Hother.
    rewrite (invocation_accepted network d requestData parsed w Hreq).
    by rewrite (invocation_accepted network
                  {| method := method d; path := path d;
                     requestSchema := other;
                     responseSchema := responseSchema d |}
                  requestData parsed' w Hother).
Qed.

(** *** Settling the call *)

(** C3: in strict mode, a response body that the response schema refuses
    rejects the promise with the schema's error; the promise carries no
    value. *)
Theorem strict_mismatch_rejects
    (network : Network) (d : ApiDefinition) (requestData parsed : Value)
    (response : AxiosResponse) (env' : gmap string string)
    (e : ZodError) (w : World) :
  safeParse (requestSchema d) requestData = SafeParseSuccess parsed ->
  network (requestConfig d requestData (process_env w)) (process_env w)
    = (Fulfilled response, env') ->
  production env' = false ->
  safeParse (responseSchema d) (res_data response) = SafeParseError e ->
  (invocation network d requestData w).1 = Normal (Rejected (ZodErr e)).
Proof.
  intros Hreq Hnet Hmode Hres.
  rewrite (invocation_accepted network d requestData parsed w Hreq).
  rewrite apiCall_run; simpl. rewrite Hnet; simpl.
  by rewrite Hmode, Hres.
Qed.

(** C6: when the transport fails, the promise is rejected with the
    transport's error and one request has been made: the helper does not
    try again, neither at once nor from a queued reaction. *)
Theorem transport_failure_rejects_without_retry
    (network : Network) (d : ApiDefinition) (requestData parsed : Value)
    (err : JsError) (env' : gmap string string) (w : World) :
  safeParse (requestSchema d) requestData = SafeParseSuccess parsed ->
  network (requestConfig d requestData (process_env w)) (process_env w)
    = (Rejected err, env') ->
  (invocation network d requestData w).1 = Normal (Rejected err)
  /\ sent (drain (invocation network d requestData w).2)
     = sent w ++ [requestConfig d requestData (process_env w)].
Proof.
  intros Hreq Hnet.
  rewrite (invocation_accepted network d requestData parsed w Hreq).
  split.
  - rewrite apiCall_run; simpl. by rewrite Hnet.
  - by rewrite drain_sent, apiCall_sent.
Qed.

(** C2, as the code runs in lenient mode: the promise is fulfilled with the
    body as it came while the check of the body is still queued, and once
    the queued reaction has run the error-reporting service has received
    nothing, whether the body matches the schema or not. *)
Theorem lenient_resolves_body_reports_nothing
    (network : Network) (d : ApiDefinition) (requestData parsed : Value)
    (response : AxiosResponse) (env' : gmap string string) (w : World) :
  safeParse (requestSchema d) requestData = SafeParseSuccess parsed ->
  network (requestConfig d requestData (process_env w)) (process_env w)
    = (Fulfilled response, env') ->
  production env' = true ->
  (invocation network d requestData w).1 = Normal (Fulfilled (res_data response))
  /\ microtasks (invocation network d requestData w).2
     = microtasks w ++
       [ResponseChecked (safeParse (responseSchema d) (res_data response))]
  /\ reported (drain (invocation network d requestData w).2) = reported w.
Proof.
  intros Hreq Hnet Hmode.
  rewrite (invocation_accepted network d requestData parsed w Hreq).
  split; [|split].
  - rewrite apiCall_run; simpl. rewrite Hnet; simpl. by rewrite Hmode.
  - rewrite apiCall_run; simpl. rewrite Hnet; simpl. by rewrite Hmode.
  - by rewrite drain_reported, apiCall_reported.
Qed.

(** *** Construction and configuration *)

(** C8: building the query function completes normally and leaves the
    process as it was, for every definition: no request is sent, no
    variable read, nothing queued.  What it returns is the function whose
    runs the other properties describe. *)
Theorem construction_is_pure
    (network : Network) (d : ApiDefinition) (w : World) :
  api network d w = (Normal (invocation network d), w).
Proof. reflexivity. Qed.

(** C10: the built function holds no configuration.  The base URL of the
    request is the value of [API_URL] in the environment of the call, and
    the policy applied to a response is decided by [NODE_ENV] in the
    environment found when the response is in, whatever it was when the
    function was called. *)
Theorem configuration_read_at_call_time
    (network : Network) (d : ApiDefinition) (requestData parsed : Value)
    (w : World) :
  safeParse (requestSchema d) requestData = SafeParseSuccess parsed ->
  let config := requestConfig d requestData (process_env w) in
  (sent (invocation network d requestData w).2 = sent w ++ [config]
   /\ req_baseURL config = process_env w !! "API_URL")
  /\ (forall (response : AxiosResponse) (env' : gmap string string),
        network config (process_env w) = (Fulfilled response, env') ->
        (invocation network d requestData w).1 =
        if production env'
        then Normal (Fulfilled (res_data response))
        else match safeParse (responseSchema d) (res_data response) with
             | SafeParseSuccess v => Normal (Fulfilled v)
             | SafeParseError e => Normal (Rejected (ZodErr e))
             end).
Proof.
  intros Hreq config.
  rewrite (invocation_accepted network d requestData parsed w Hreq).
  split.
  - by rewrite apiCall_sent.
  - intros response env' Hnet.
    rewrite apiCall_run; simpl. fold config. rewrite Hnet; simpl.
    destruct (production env'); [done|].
    by destruct (safeParse (responseSchema d) (res_data response)).
Qed.

(** *** Parsing twice *)

(** Induction over schemas, with the hypothesis available for every field
    of an object schema. *)
Lemma ZodSchema_nested_ind (P : ZodSchema -> Prop) :
  P ZodVoid ->
  (forall minLength, P (ZodString minLength)) ->
  (forall shape, Forall (fun entry => P entry.2) shape -> P (ZodObject shape)) ->
  forall schema, P schema.
Proof.
  intros Hvoid Hstring Hobject.
  fix IH 1. intros [| minLength | shape].
  - exact Hvoid.
  - apply Hstring.
  - apply Hobject. induction shape as [|[key field] rest IHrest].
    + constructor.
    + constructor; [apply IH | exact IHrest].
Qed.

Lemma getProperty_None (key : string) (fields : list (string * Value)) :
  getProperty key fields = None <-> key ∉ fields.*1.
Proof.
  induction fields as [|[k v] rest IH]; simpl.
  - split; [intros _; apply not_elem_of_nil | done].
  - destruct (String.eqb_spec key k) as [->|Hne].
    + split; [done | intros Hnot; destruct Hnot; left].
    + rewrite IH, not_elem_of_cons. tauto.
Qed.

Lemma getProperty_app_fresh (key : string) (pre fields : list (string * Value)) :
  key ∉ pre.*1 ->
  getProperty key (pre ++ fields) = getProperty key fields.
Proof.
  induction pre as [|[k v] pre IH]; simpl; [done|].
  rewrite not_elem_of_cons. intros [Hne Hpre].
  destruct (String.eqb_spec key k); [done | by apply IH].
Qed.

Lemma getProperty_head (key : string) (v : Value)
    (pre rest : list (string * Value)) :
  key ∉ pre.*1 ->
  getProperty key (pre ++ (key, v) :: rest) = Some v.
Proof.
  intros Hpre. rewrite getProperty_app_fresh by done. simpl.
  by rewrite String.eqb_refl.
Qed.

Section ParseShape.

Context (parseField : ZodSchema -> Value -> SafeParseReturnType).

(** The parsed object has no key outside the shape. *)
Lemma parseShape_keys (fields out : list (string * Value))
    (shape : list (string * ZodSchema)) :
  parseShape parseField fields shape = inr out ->
  out.*1 ⊆ shape.*1.
Proof.
  revert out. induction shape as [|[key field] rest IH]; intros out; simpl.
  - intros [= <-]. done.
  - destruct (parseField field _) as [v|e];
      destruct (parseShape parseField fields rest) as [errs|out'];
      try discriminate.
    intros [= <-]. specialize (IH out' eq_refl).
    destruct (negb (isUndefined v) || hasProperty key fields); simpl.
    + intros k Hk. apply elem_of_cons in Hk as [->|Hk]; [left | right; by apply IH].
    + intros k Hk. right. by apply IH.
Qed.

(** Parsing the parsed object again, behind properties [pre] that the
    shape does not name, gives the parsed object. *)
Lemma parseShape_again (fields : list (string * Value))
    (shape : list (string * ZodSchema)) :
  NoDup shape.*1 ->
  Forall (fun entry => forall input v,
            parseField entry.2 input = SafeParseSuccess v ->
            parseField entry.2 v = SafeParseSuccess v) shape ->
  forall pre out,
    (forall key, key ∈ shape.*1 -> key ∉ pre.*1) ->
    parseShape parseField fields shape = inr out ->
    parseShape parseField (pre ++ out) shape = inr out.
Proof.
  induction shape as [|[key field] rest IH]; intros Hkeys Hfields pre out Hpre.
  - simpl. by intros [= <-].
  - simpl in Hkeys. apply NoDup_cons in Hkeys as [Hfresh Hkeys].
    apply Forall_cons in Hfields as [Hfield Hfields]. simpl in Hfield.
    assert (key ∉ pre.*1) as Hkey by (apply Hpre; simpl; left).
    simpl.
    destruct (parseField field (default VUndefined (getProperty key fields)))
      as [v|e] eqn:Hparse;
      destruct (parseShape parseField fields rest) as [errs|out'] eqn:Hrest;
      try discriminate.
    intros [= <-].
    pose proof (parseShape_keys _ _ _ Hrest) as Hsub.
    destruct (negb (isUndefined v) || hasProperty key fields) eqn:Hkept.
    + rewrite getProperty_head by done. simpl.
      rewrite (Hfield _ _ Hparse).
      unfold hasProperty. rewrite getProperty_head by done.
      rewrite orb_true_r.
      replace (pre ++ (key, v) :: out') with ((pre ++ [(key, v)]) ++ out')
        by (by rewrite <- app_assoc).
      rewrite (IH Hkeys Hfields (pre ++ [(key, v)]) out'); [done | | done].
      intros k Hk. rewrite fmap_app, not_elem_of_app. split.
      * apply Hpre. simpl. by right.
      * simpl. rewrite list_elem_of_singleton. intros ->. done.
    + apply orb_false_iff in Hkept as [Hundef Hmissing].
      destruct v; try discriminate.
      unfold hasProperty in Hmissing.
      destruct (getProperty key fields) eqn:Hget; [discriminate|].
      assert (getProperty key (pre ++ out') = None) as Hgone.
      { apply getProperty_None. rewrite fmap_app, not_elem_of_app.
        split; [done|]. intros Hin. apply Hfresh. by apply Hsub. }
      rewrite Hgone. simpl in *. rewrite Hparse.
      rewrite (IH Hkeys Hfields pre out'); [| | done].
      * unfold hasProperty. by rewrite Hgone.
      * intros k Hk. apply Hpre. simpl. by right.
Qed.

End ParseShape.

(** A schema of the three constructors returns its parsed values
    unchanged. *)
Lemma zodParse_again (schema : ZodSchema) :
  distinctKeys schema = true ->
  forall input v,
    zodParse schema input = SafeParseSuccess v ->
    zodParse schema v = SafeParseSuccess v.
Proof.
  induction schema as [| minLength | shape IH] using ZodSchema_nested_ind;
    intros Hwf input v.
  - destruct input; simpl; try discriminate. by intros [= <-].
  - destruct input as [| | | |s| |]; simpl; try discriminate.
    destruct minLength as [n|].
    + destruct (Nat.ltb (String.length s) n) eqn:Hlen; [discriminate|].
      intros [= <-]. simpl. by rewrite Hlen.
    + by intros [= <-].
  - simpl in Hwf. apply andb_true_iff in Hwf as [Hkeys Hfields].
    apply bool_decide_eq_true in Hkeys.
    destruct input as [| | | | | |fields]; simpl; try discriminate.
    destruct (parseShape zodParse fields shape) as [errs|out] eqn:Hshape;
      [discriminate|].
    intros [= <-]. simpl.
    assert (Forall (fun entry => forall input v,
                      zodParse entry.2 input = SafeParseSuccess v ->
                      zodParse entry.2 v = SafeParseSuccess v) shape) as Hagain.
    { rewrite forallb_forall in Hfields.
      apply Forall_forall. intros entry Hentry.
      rewrite Forall_forall in IH.
      apply (IH entry Hentry). apply Hfields. by apply list_elem_of_In. }
    pose proof (parseShape_again zodParse fields shape Hkeys Hagain [] out) as Hout.
    simpl in Hout. rewrite Hout; [done | | done].
    intros key _. apply not_elem_of_nil.
Qed.










(** *** The query function of the post *)

(** C7: [getRepository], called without an argument in strict mode.  When
    the server answers with an empty name the promise is rejected with the
    schema's error, the name being too small; when it answers with the name
    "octo" the promise is fulfilled with that object. *)
Theorem getRepository_strict_scenarios
    (network : Network) (response : AxiosResponse)
    (env' : gmap string string) (w : World) :
  network (requestConfig getRepositoryDefinition VUndefined (process_env w))
    (process_env w) = (Fulfilled response, env') ->
  production env' = false ->
  (res_data response = emptyName ->
   (getRepository network VUndefined w).1 =
   Normal (Rejected (ZodErr
     {| issues := [ {| code := too_small; issuePath := ["name"] |} ] |})))
  /\ (res_data response = octo ->
      (getRepository network VUndefined w).1 = Normal (Fulfilled octo)).
Proof.
  intros Hnet Hmode. unfold getRepository.
  rewrite (invocation_accepted network getRepositoryDefinition
             VUndefined VUndefined w eq_refl).
  rewrite apiCall_run; simpl. rewrite Hnet; simpl. rewrite Hmode.
  split; intros ->; reflexivity.
Qed.

(** ** The properties at work *)

(** [getRepository(null)]: refused, nothing sent. *)
Lemma invalid_request_throws_before_transport_witness :
  let e := {| issues := [ {| code := invalid_type; issuePath := [] |} ] |} in
  let w := freshWorld development in
  safeParse (requestSchema getRepositoryDefinition) VNull = SafeParseError e
  /\ (invocation (respond octo) getRepositoryDefinition VNull w = (Throw (ZodErr e), w)
      /\ sent (drain (invocation (respond octo) getRepositoryDefinition VNull w).2)
         = sent w).
Proof.
  intros e w. split; [reflexivity|].
  apply (invalid_request_throws_before_transport
           (respond octo) getRepositoryDefinition VNull e w).
  reflexivity.
Defined.

(** A POST of "go" to "/shout": one request, the payload under [data]. *)
Lemma valid_request_one_transport_call_witness :
  let d := shoutDefinition POST in
  let w := freshWorld development in
  safeParse (requestSchema d) (VStr "go") = SafeParseSuccess (VStr "go!")
  /\ exists config,
       sent (drain (invocation (failWith Timeout) d (VStr "go") w).2)
       = sent w ++ [config]
       /\ req_method config = method d
       /\ req_url config = path d
       /\ (method d = GET ->
           req_params config = Some (VStr "go") /\ req_data config = None)
       /\ (method d <> GET ->
           req_data config = Some (VStr "go") /\ req_params config = None).
Proof.
  intros d w. split; [reflexivity|].
  apply (valid_request_one_transport_call
           (failWith Timeout) d (VStr "go") (VStr "go!") w).
  reflexivity.
Defined.

(** The request schema of "/shout" turns "go" into "go!"; "go" is sent. *)
Lemma transport_receives_original_payload_witness :
  let d := shoutDefinition GET in
  let w := freshWorld development in
  safeParse (requestSchema d) (VStr "go") = SafeParseSuccess (VStr "go!")
  /\ ((exists config,
         sent (invocation (respond (VStr "hi")) d (VStr "go") w).2 = sent w ++ [config]
         /\ payload config = Some (VStr "go"))
      /\ (forall (other : ZodType) (parsed' : Value),
            safeParse other (VStr "go") = SafeParseSuccess parsed' ->
            invocation (respond (VStr "hi"))
              {| method := method d; path := path d;
                 requestSchema := other; responseSchema := responseSchema d |}
              (VStr "go") w
            = invocation (respond (VStr "hi")) d (VStr "go") w)).
Proof.
  intros d w. split; [reflexivity|].
  apply (transport_receives_original_payload
           (respond (VStr "hi")) d (VStr "go") (VStr "go!") w).
  reflexivity.
Defined.

(** Development, the server answers with an empty name: rejected. *)
Lemma strict_mismatch_rejects_witness :
  let d := getRepositoryDefinition in
  let w := freshWorld development in
  let response := {| res_data := emptyName; res_status := 200 |} in
  let e := {| issues := [ {| code := too_small; issuePath := ["name"] |} ] |} in
  safeParse (requestSchema d) VUndefined = SafeParseSuccess VUndefined
  /\ respond emptyName (requestConfig d VUndefined (process_env w)) (process_env w)
     = (Fulfilled response, development)
  /\ production development = false
  /\ safeParse (responseSchema d) (res_data response) = SafeParseError e
  /\ (invocation (respond emptyName) d VUndefined w).1 = Normal (Rejected (ZodErr e)).
Proof.
  intros d w response e.
  split; [reflexivity|]. split; [reflexivity|].
  split; [reflexivity|]. split; [reflexivity|].
  apply (strict_mismatch_rejects (respond emptyName) d VUndefined VUndefined
           response development e w); reflexivity.
Defined.

(** The transport times out: rejected with the time-out, one request. *)
Lemma transport_failure_rejects_without_retry_witness :
  let d := getRepositoryDefinition in
  let w := freshWorld development in
  safeParse (requestSchema d) VUndefined = SafeParseSuccess VUndefined
  /\ failWith Timeout (requestConfig d VUndefined (process_env w)) (process_env w)
     = (Rejected (AxiosErr Timeout), development)
  /\ ((invocation (failWith Timeout) d VUndefined w).1
      = Normal (Rejected (AxiosErr Timeout))
      /\ sent (drain (invocation (failWith Timeout) d VUndefined w).2)
         = sent w ++ [requestConfig d VUndefined (process_env w)]).
Proof.
  intros d w. split; [reflexivity|]. split; [reflexivity|].
  apply (transport_failure_rejects_without_retry (failWith Timeout) d
           VUndefined VUndefined (AxiosErr Timeout) development w); reflexivity.
Defined.

(** Production, the server answers with an empty name: the response schema
    refuses the body, the promise is fulfilled with it, and the
    error-reporting service has received no report. *)
Lemma lenient_resolves_body_reports_nothing_witness :
  let d := getRepositoryDefinition in
  let w := freshWorld live in
  let response := {| res_data := emptyName; res_status := 200 |} in
  safeParse (requestSchema d) VUndefined = SafeParseSuccess VUndefined
  /\ respond emptyName (requestConfig d VUndefined (process_env w)) (process_env w)
     = (Fulfilled response, live)
  /\ production live = true
  /\ success (safeParse (responseSchema d) emptyName) = false
  /\ ((invocation (respond emptyName) d VUndefined w).1
      = Normal (Fulfilled (res_data response))
      /\ microtasks (invocation (respond emptyName) d VUndefined w).2
         = microtasks w ++
           [ResponseChecked (safeParse (responseSchema d) (res_data response))]
      /\ reported (drain (invocation (respond emptyName) d VUndefined w).2)
         = reported w).
Proof.
  intros d w response.
  split; [reflexivity|]. split; [reflexivity|].
  split; [reflexivity|]. split; [reflexivity|].
  apply (lenient_resolves_body_reports_nothing (respond emptyName) d
           VUndefined VUndefined response live w); reflexivity.
Defined.


(** Development, the server answers as in the two scenarios. *)
Lemma getRepository_strict_scenarios_witness :
  let w := freshWorld development in
  let config := requestConfig getRepositoryDefinition VUndefined (process_env w) in
  (respond emptyName config (process_env w)
   = (Fulfilled {| res_data := emptyName; res_status := 200 |}, development)
   /\ respond octo config (process_env w)
      = (Fulfilled {| res_data := octo; res_status := 200 |}, development)
   /\ production development = false)
  /\ (getRepository (respond emptyName) VUndefined w).1 =
     Normal (Rejected (ZodErr
       {| issues := [ {| code := too_small; issuePath := ["name"] |} ] |}))
  /\ (getRepository (respond octo) VUndefined w).1 = Normal (Fulfilled octo).
Proof.
  intros w config. split; [by repeat split|]. split.
  - apply (getRepository_strict_scenarios (respond emptyName)
             {| res_data := emptyName; res_status := 200 |} development w);
      reflexivity.
  - apply (getRepository_strict_scenarios (respond octo)
             {| res_data := octo; res_status := 200 |} development w);
      reflexivity.
Defined.

(** Called in development; production is set while the request is under
    way: the empty name, which development would reject, is let through. *)
Lemma configuration_read_at_call_time_witness :
  let d := getRepositoryDefinition in
  let w := freshWorld development in
  let network := respondWhileSetting "production" emptyName in
  safeParse (requestSchema d) VUndefined = SafeParseSuccess VUndefined
  /\ production (process_env w) = false
  /\ (let config := requestConfig d VUndefined (process_env w) in
      (sent (invocation network d VUndefined w).2 = sent w ++ [config]
       /\ req_baseURL config = process_env w !! "API_URL")
      /\ (forall (response : AxiosResponse) (env' : gmap string string),
            network config (process_env w) = (Fulfilled response, env') ->
            (invocation network d VUndefined w).1 =
            if production env'
            then Normal (Fulfilled (res_data response))
            else match safeParse (responseSchema d) (res_data response) with
                 | SafeParseSuccess v => Normal (Fulfilled v)
                 | SafeParseError e => Normal (Rejected (ZodErr e))
                 end)).
Proof.
  intros d w network. split; [reflexivity|]. split; [reflexivity|].
  apply (configuration_read_at_call_time network d VUndefined VUndefined w).
  reflexivity.
Defined.

(** ** Further properties of the helper *)

Lemma apiCall_env (network : Network) (d : ApiDefinition) (requestData : Value)
    (w : World) :
  process_env (apiCall network d requestData w).2
  = (network (requestConfig d requestData (process_env w)) (process_env w)).2.
Proof.
  rewrite apiCall_run; simpl.
  destruct (network _ (process_env w)) as [[response|err] env']; simpl; [|done].
  destruct (production env'); simpl; [done|].
  by destruct (safeParse (responseSchema d) (res_data response)).
Qed.

(** The same answer from the server, received once in strict and once in
    lenient mode: the two calls settle alike exactly when the response
    schema accepts the body and returns it unchanged.  A body the schema
    refuses, strips or transforms makes development and production
    differ. *)
Theorem modes_agree_iff_schema_returns_body
    (strictNet lenientNet : Network) (d : ApiDefinition)
    (requestData parsed : Value) (response : AxiosResponse)
    (envS envL : gmap string string) (wS wL : World) :
  safeParse (requestSchema d) requestData = SafeParseSuccess parsed ->
  strictNet (requestConfig d requestData (process_env wS)) (process_env wS)
    = (Fulfilled response, envS) ->
  production envS = false ->
  lenientNet (requestConfig d requestData (process_env wL)) (process_env wL)
    = (Fulfilled response, envL) ->
  production envL = true ->
  (invocation strictNet d requestData wS).1 = (invocation lenientNet d requestData wL).1
  <-> safeParse (responseSchema d) (res_data response)
      = SafeParseSuccess (res_data response).
Proof.
  intros Hreq HnetS HmodeS HnetL HmodeL.
  rewrite (invocation_accepted strictNet d requestData parsed wS Hreq).
  rewrite (invocation_accepted lenientNet d requestData parsed wL Hreq).
  rewrite !apiCall_run; simpl. rewrite HnetS, HnetL; simpl.
  rewrite HmodeS, HmodeL.
  destruct (safeParse (responseSchema d) (res_data response)) as [v|e]; simpl.
  - split; congruence.
  - split; discriminate.
Qed.

(** In lenient mode the response schema has no say in what the caller
    gets: replace it by any other schema and the call settles the same way,
    with the same request sent, the same environment and the same reports
    made by the time the promise settles.  The two runs differ only in the
    check they leave queued. *)
Theorem lenient_ignores_response_schema
    (network : Network) (d : ApiDefinition) (requestData parsed : Value)
    (other : ZodType) (w : World) :
  safeParse (requestSchema d) requestData = SafeParseSuccess parsed ->
  production
    (network (requestConfig d requestData (process_env w)) (process_env w)).2
    = true ->
  let d' := {| method := method d; path := path d;
               requestSchema := requestSchema d; responseSchema := other |} in
  (invocation network d' requestData w).1 = (invocation network d requestData w).1
  /\ process_env (invocation network d' requestData w).2
     = process_env (invocation network d requestData w).2
  /\ sent (invocation network d' requestData w).2
     = sent (invocation network d requestData w).2
  /\ reported (invocation network d' requestData w).2
     = reported (invocation network d requestData w).2.
Proof.
  intros Hreq Hmode d'.
  rewrite (invocation_accepted network d requestData parsed w Hreq).
  rewrite (invocation_accepted network d' requestData parsed w Hreq).
  rewrite !apiCall_env, !apiCall_sent, !apiCall_reported.
  split; [|done].
  rewrite !apiCall_run; simpl.
  change (requestConfig d' requestData (process_env w))
    with (requestConfig d requestData (process_env w)).
  destruct (network _ (process_env w)) as [[response|err] env']; simpl in *;
    [|done].
  by rewrite Hmode.
Qed.

(** Two calls in a row cost two requests, in the order of the calls, also
    for equal payloads: the helper remembers no answer.  The second request
    is built from the environment as the first round trip left it. *)
Theorem consecutive_invocations_send_two_requests
    (network : Network) (d : ApiDefinition)
    (first second parsed1 parsed2 : Value) (w : World) :
  safeParse (requestSchema d) first = SafeParseSuccess parsed1 ->
  safeParse (requestSchema d) second = SafeParseSuccess parsed2 ->
  let w1 := (invocation network d first w).2 in
  let w2 := (invocation network d second w1).2 in
  sent w2 = sent w ++ [requestConfig d first (process_env w);
                        requestConfig d second (process_env w1)]
  /\ process_env w1
     = (network (requestConfig d first (process_env w)) (process_env w)).2.
Proof.
  intros Hfirst Hsecond w1 w2. subst w1 w2.
  rewrite (invocation_accepted network d second parsed2 _ Hsecond).
  rewrite (invocation_accepted network d first parsed1 w Hfirst).
  split.
  - by rewrite !apiCall_sent, <- app_assoc.
  - apply apiCall_env.
Qed.

(** The helper settles a call by the body of the response and never looks
    at its status: two answers with the same body are treated alike,
    whatever their status codes. *)
Theorem status_is_not_inspected
    (netA netB : Network) (d : ApiDefinition) (requestData body : Value)
    (statusA statusB : Z) (env' : gmap string string) (w : World) :
  netA (requestConfig d requestData (process_env w)) (process_env w)
    = (Fulfilled {| res_data := body; res_status := statusA |}, env') ->
  netB (requestConfig d requestData (process_env w)) (process_env w)
    = (Fulfilled {| res_data := body; res_status := statusB |}, env') ->
  invocation netA d requestData w = invocation netB d requestData w.
Proof.
  intros HnetA HnetB.
  destruct (safeParse (requestSchema d) requestData) as [parsed|e] eqn:Hreq.
  - rewrite (invocation_accepted netA d requestData parsed w Hreq).
    rewrite (invocation_accepted netB d requestData parsed w Hreq).
    rewrite !apiCall_run. cbv zeta. by rewrite HnetA, HnetB.
  - rewrite (invocation_refused netA d requestData e w Hreq).
    by rewrite (invocation_refused netB d requestData e w Hreq).
Qed.

(** What the response schema of [getRepository] lets through. *)
Lemma GetRepositoryResponse_parsed (body v : Value) :
  zodParse GetRepositoryResponse body = SafeParseSuccess v ->
  exists name, v = VObj [("name", VStr name)] /\ 1 <= String.length name.
Proof.
  destruct body as [| | | | | |fields]; simpl; try discriminate.
  unfold hasProperty.
  destruct (getProperty "name" fields) as [[| | | |name| |]|]; simpl;
    try discriminate.
  destruct (Nat.ltb (String.length name) 1) eqn:Hlen; simpl; [discriminate|].
  intros [= <-]. exists name. split; [done|].
  by apply Nat.ltb_ge.
Qed.

Lemma getRepository_strict_value
    (network : Network) (requestData v : Value) (w : World) :
  production (process_env (getRepository network requestData w).2) = false ->
  (getRepository network requestData w).1 = Normal (Fulfilled v) ->
  exists name, v = VObj [("name", VStr name)] /\ 1 <= String.length name.
Proof.
  unfold getRepository.
  destruct (safeParse (requestSchema getRepositoryDefinition) requestData)
    as [parsed|e] eqn:Hreq.
  - rewrite (invocation_accepted network _ requestData parsed w Hreq).
    rewrite apiCall_run. cbv zeta.
    destruct (network _ (process_env w)) as [[response|err] env'];
      cbn [fst snd afterCall process_env]; [|intros; congruence].
    destruct (production env') eqn:Hmode; cbn [fst snd process_env].
    + intros Hstrict. congruence.
    + intros _.
      destruct (safeParse (responseSchema getRepositoryDefinition)
                  (res_data response)) as [parsedBody|e] eqn:Hres;
        cbn [fst]; [|intros; congruence].
      intros [= <-]. by apply (GetRepositoryResponse_parsed (res_data response)).
  - rewrite (invocation_refused network _ requestData e w Hreq).
    cbn [fst snd]. intros; congruence.
Qed.

(** Whatever the server sends and whatever argument is passed, a value
    that [getRepository] resolves with in strict mode is an object with the
    one property [name], a string that is not empty. *)
Theorem getRepository_strict_resolves_named
    (network : Network) (requestData v : Value) (w : World) :
  production (process_env (getRepository network requestData w).2) = false ->
  (getRepository network requestData w).1 = Normal (Fulfilled v) ->
  exists name, v = VObj [("name", VStr name)] /\ 1 <= String.length name.
Proof. apply getRepository_strict_value. Qed.

(** ** The components *)

(** [Example] returns its [div] for every value of [data], also while the
    query has no data yet: the optional chain reads [undefined] where a
    plain property read would throw, and the name shown is then
    [undefined], which React leaves out. *)
Theorem Example_renders_any_data (data : Value) :
  Example data
  = Returns (Element (Tag "div") []
               [Child (VStr "The name is "); Child (read data "name")]).
Proof. unfold Example, optionalMember, member. by destruct data. Qed.

(** Fed with what [getRepository] resolved with in strict mode, [Example]
    shows a string that is not empty. *)
Theorem Example_shows_name_in_strict_mode
    (network : Network) (requestData v : Value) (w : World) :
  production (process_env (getRepository network requestData w).2) = false ->
  (getRepository network requestData w).1 = Normal (Fulfilled v) ->
  exists name,
    1 <= String.length name
    /\ Example v = Returns (Element (Tag "div") []
                              [Child (VStr "The name is "); Child (VStr name)]).
Proof.
  intros Hmode Hdone.
  destruct (getRepository_strict_value network requestData v w Hmode Hdone)
    as (name & -> & Hlen).
  by exists name.
Qed.

(** The page component returns a page exactly when the query result, its
    post, the post's front matter, the cover and the cover's file are all
    there; if one of them is [null] or [undefined], a post without a cover
    for one, it throws. *)
Theorem BlogPost_returns_iff (data : Value) :
  let post := read data "markdownRemark" in
  let frontmatter := read post "frontmatter" in
  let cover := read frontmatter "cover" in
  let file := read cover "file" in
  (exists page, BlogPost data = Returns page)
  <-> nullish data = false /\ nullish post = false
      /\ nullish frontmatter = false /\ nullish cover = false
      /\ nullish file = false.
Proof.
  intros post frontmatter cover file. subst post frontmatter cover file.
  split.
  - run_BlogPost; intros [page Hpage]; try discriminate Hpage; by repeat split.
  - intros (Hdata & Hpost & Hfront & Hcover & Hfile).
    unfold BlogPost, chain, member, andThen.
    rewrite Hdata, Hpost, Hfront, Hcover, Hfile. by eexists.
Qed.

(** Where the values read from the post go.  The title and the body are
    handed to the page as markup, in that order, and nothing else is.  The
    elements of the page and their props are the ones listed: beside the
    two pieces of markup, the props hold the cover's file, alternative text
    and link, and constants.  The date, the reading time and the author of
    the cover are children, which React escapes, and are in no prop. *)
Theorem BlogPost_markup_and_text (data : Value) (page : ReactNode) :
  BlogPost data = Returns page ->
  let post := read data "markdownRemark" in
  let frontmatter := read post "frontmatter" in
  let cover := read frontmatter "cover" in
  innerHTMLs page = [read frontmatter "title"; read post "html"]
  /\ elements page =
     [(Fragment, []);
      (Component "PostHeader", []);
      (Component "Layout", []);
      (Tag "article", [("lang", VStr "en")]);
      (Tag "h1", []);
      (Tag "span",
       [("dangerouslySetInnerHTML", VObj [("__html", read frontmatter "title")])]);
      (Component "Meta", []);
      (Tag "figure", []);
      (Tag "img",
       [("src", read (read cover "file") "publicURL"); ("alt", read cover "alt")]);
      (Tag "figcaption", []);
      (Tag "a",
       [("href", read cover "link"); ("target", VStr "_blank");
        ("rel", VStr "noopener noreferrer")]);
      (Tag "div",
       [("dangerouslySetInnerHTML", VObj [("__html", read post "html")])]);
      (Component "Footer", []);
      (Tag "a",
       [("href", VStr "https://twitter.com/Gpx"); ("target", VStr "_blank");
        ("rel", VStr "noopener noreferrer")])]
  /\ textChildren page =
     [read frontmatter "date"; VStr " · "; read post "timeToRead";
      VStr " min read"; VStr "Photo by "; read cover "author";
      VStr "Would you like to have a civil discussion about this post? Hit me up on";
      VStr " "; VStr "twitter"; VStr "."].
Proof.
  revert page. run_BlogPost; intros page Hpage; try discriminate Hpage.
  injection Hpage as <-. by repeat split.
Qed.

(** Every link of the page opens in a new tab and withholds the opener and
    the referrer; the links are the cover's and the Twitter page of the footer. *)
Theorem BlogPost_links (data : Value) (page : ReactNode) :
  BlogPost data = Returns page ->
  Forall (fun props =>
            getProperty "target" props = Some (VStr "_blank")
            /\ getProperty "rel" props = Some (VStr "noopener noreferrer"))
         (anchors page)
  /\ omap (getProperty "href") (anchors page) =
     [read (read (read (read data "markdownRemark") "frontmatter") "cover") "link";
      VStr "https://twitter.com/Gpx"].
Proof.
  revert page. run_BlogPost; intros page Hpage; try discriminate Hpage.
  injection Hpage as <-. split; [|done].
  by repeat constructor.
Qed.

(** ** The further properties at work *)

(** A body with a field the schema does not know: development resolves
    with the name alone, production with the body as it came. *)
Lemma modes_agree_iff_schema_returns_body_witness :
  let d := getRepositoryDefinition in
  let wS := freshWorld development in
  let wL := freshWorld live in
  let response := {| res_data := octoWithStars; res_status := 200 |} in
  (safeParse (requestSchema d) VUndefined = SafeParseSuccess VUndefined
   /\ respond octoWithStars (requestConfig d VUndefined (process_env wS)) (process_env wS)
      = (Fulfilled response, development)
   /\ production development = false
   /\ respond octoWithStars (requestConfig d VUndefined (process_env wL)) (process_env wL)
      = (Fulfilled response, live)
   /\ production live = true)
  /\ ((invocation (respond octoWithStars) d VUndefined wS).1
      = (invocation (respond octoWithStars) d VUndefined wL).1
      <-> safeParse (responseSchema d) (res_data response)
          = SafeParseSuccess (res_data response)).
Proof.
  intros d wS wL response. split; [by repeat split|].
  apply (modes_agree_iff_schema_returns_body
           (respond octoWithStars) (respond octoWithStars) d VUndefined VUndefined
           response development live wS wL); reflexivity.
Defined.

(** Production, with the response schema of [getRepository] replaced by one
    that appends to strings. *)
Lemma lenient_ignores_response_schema_witness :
  let d := getRepositoryDefinition in
  let w := freshWorld live in
  let d' := {| method := method d; path := path d;
               requestSchema := requestSchema d; responseSchema := exclaim |} in
  (safeParse (requestSchema d) VUndefined = SafeParseSuccess VUndefined
   /\ production
        (respond emptyName (requestConfig d VUndefined (process_env w)) (process_env w)).2
      = true)
  /\ ((invocation (respond emptyName) d' VUndefined w).1
      = (invocation (respond emptyName) d VUndefined w).1
      /\ process_env (invocation (respond emptyName) d' VUndefined w).2
         = process_env (invocation (respond emptyName) d VUndefined w).2
      /\ sent (invocation (respond emptyName) d' VUndefined w).2
         = sent (invocation (respond emptyName) d VUndefined w).2
      /\ reported (invocation (respond emptyName) d' VUndefined w).2
         = reported (invocation (respond emptyName) d VUndefined w).2).
Proof.
  intros d w d'. split; [by split|].
  apply (lenient_ignores_response_schema (respond emptyName) d
           VUndefined VUndefined exclaim w); reflexivity.
Defined.

(** The same payload posted twice. *)
Lemma consecutive_invocations_send_two_requests_witness :
  let d := shoutDefinition POST in
  let w := freshWorld development in
  let network := respondWhileSetting "production" (VStr "hi") in
  let w1 := (invocation network d (VStr "go") w).2 in
  let w2 := (invocation network d (VStr "go") w1).2 in
  safeParse (requestSchema d) (VStr "go") = SafeParseSuccess (VStr "go!")
  /\ (sent w2 = sent w ++ [requestConfig d (VStr "go") (process_env w);
                           requestConfig d (VStr "go") (process_env w1)]
      /\ process_env w1
         = (network (requestConfig d (VStr "go") (process_env w)) (process_env w)).2).
Proof.
  intros d w network w1 w2. split; [reflexivity|].
  apply (consecutive_invocations_send_two_requests network d
           (VStr "go") (VStr "go") (VStr "go!") (VStr "go!") w); reflexivity.
Defined.

(** The same body under 200 and under 204. *)
Lemma status_is_not_inspected_witness :
  let d := getRepositoryDefinition in
  let w := freshWorld development in
  let config := requestConfig d VUndefined (process_env w) in
  (respondStatus 200 octo config (process_env w)
   = (Fulfilled {| res_data := octo; res_status := 200 |}, development)
   /\ respondStatus 204 octo config (process_env w)
      = (Fulfilled {| res_data := octo; res_status := 204 |}, development))
  /\ invocation (respondStatus 200 octo) d VUndefined w
     = invocation (respondStatus 204 octo) d VUndefined w.
Proof.
  intros d w config. split; [by split|].
  apply (status_is_not_inspected (respondStatus 200 octo) (respondStatus 204 octo)
           d VUndefined octo 200 204 development w); reflexivity.
Defined.

(** Development, the server answers with a name and a count of stars. *)
Lemma getRepository_strict_resolves_named_witness :
  let w := freshWorld development in
  (production (process_env (getRepository (respond octoWithStars) VUndefined w).2) = false
   /\ (getRepository (respond octoWithStars) VUndefined w).1 = Normal (Fulfilled octo))
  /\ exists name, octo = VObj [("name", VStr name)] /\ 1 <= String.length name.
Proof.
  intros w. split; [by split|].
  apply (getRepository_strict_resolves_named (respond octoWithStars) VUndefined octo w);
    reflexivity.
Defined.

Lemma Example_shows_name_in_strict_mode_witness :
  let w := freshWorld development in
  (production (process_env (getRepository (respond octoWithStars) VUndefined w).2) = false
   /\ (getRepository (respond octoWithStars) VUndefined w).1 = Normal (Fulfilled octo))
  /\ exists name,
       1 <= String.length name
       /\ Example octo = Returns (Element (Tag "div") []
                                    [Child (VStr "The name is "); Child (VStr name)]).
Proof.
  intros w. split; [by split|].
  apply (Example_shows_name_in_strict_mode (respond octoWithStars) VUndefined octo w);
    reflexivity.
Defined.

(** A post with a cover, its title and the author's name holding markup:
    the title goes in as markup, the author's name as text. *)
Lemma BlogPost_markup_and_text_witness :
  BlogPost (samplePost sampleCover) = Returns samplePage
  /\ (innerHTMLs samplePage
      = [VStr "Effective <em>Query</em> Functions"; VStr "<p>Hello</p>"]
      /\ elements samplePage =
         [(Fragment, []);
          (Component "PostHeader", []);
          (Component "Layout", []);
          (Tag "article", [("lang", VStr "en")]);
          (Tag "h1", []);
          (Tag "span",
           [("dangerouslySetInnerHTML",
             VObj [("__html", VStr "Effective <em>Query</em> Functions")])]);
          (Component "Meta", []);
          (Tag "figure", []);
          (Tag "img",
           [("src", VStr "/static/cover.jpg"); ("alt", VStr "A desk")]);
          (Tag "figcaption", []);
          (Tag "a",
           [("href", VStr "https://unsplash.example/ann"); ("target", VStr "_blank");
            ("rel", VStr "noopener noreferrer")]);
          (Tag "div",
           [("dangerouslySetInnerHTML", VObj [("__html", VStr "<p>Hello</p>")])]);
          (Component "Footer", []);
          (Tag "a",
           [("href", VStr "https://twitter.com/Gpx"); ("target", VStr "_blank");
            ("rel", VStr "noopener noreferrer")])]
      /\ textChildren samplePage =
         [VStr "March 03, 2022"; VStr " · "; VNum 3; VStr " min read";
          VStr "Photo by "; VStr "<b>Ann</b>";
          VStr "Would you like to have a civil discussion about this post? Hit me up on";
          VStr " "; VStr "twitter"; VStr "."]).
Proof.
  split; [reflexivity|].
  exact (BlogPost_markup_and_text (samplePost sampleCover) samplePage eq_refl).
Defined.

Lemma BlogPost_links_witness :
  BlogPost (samplePost sampleCover) = Returns samplePage
  /\ (Forall (fun props =>
                getProperty "target" props = Some (VStr "_blank")
                /\ getProperty "rel" props = Some (VStr "noopener noreferrer"))
             (anchors samplePage)
      /\ omap (getProperty "href") (anchors samplePage)
         = [VStr "https://unsplash.example/ann"; VStr "https://twitter.com/Gpx"]).
Proof.
  split; [reflexivity|].
  exact (BlogPost_links (samplePost sampleCover) samplePage eq_refl).
Defined.
